(** * GPUResourceState: tracking of per-resource or per-subresource state

    A shallow embedding of [Source/Engine/Graphics/GPUResourceState.h]
    (the class template [GPUResourceState<StateType, InvalidState>]) and the
    properties of it that the specification states.

    Conventions of the embedding.
    - [uint32] and [int32] arguments are integers in [Z]; the comparisons of
      the source are written on them as they stand.  Counts and indices are
      not bounded: the array is a sequence of any length, as the
      specification has it.
    - [ASSERT] is a fail-fast check: a method whose assertion fails has no
      result ([None]).  A method without assertion is a total function.
    - The template arguments and the build configuration are the members of
      the class [Instantiation]; every property is proved for each of its
      instances, so for both values of [BUILD_DEBUG].
    - [_resourceState] is a bit-field of width 31.  What it gives back after
      an assignment is a member of the instantiation, [to_bits31]; a state
      [s] is held exactly when [to_bits31 s = s] ([fits31]). *)

From stdpp Require Import base option list numbers.

Open Scope Z_scope.

(** ** The engine's assertion macro *)

Definition ASSERT (expression : bool) : option unit :=
  if expression then Some () else None.

(** ** The engine's dynamic array *)

(** [Engine/Core/Collections/Array.h] is not among the sources.  The members
    of [Array<T>] that [GPUResourceState] calls are given here on a list of
    the entries, after what the specification says of the per-subresource
    storage. *)

Module Array.
Section Array.
Context {T : Type}.

(** Modelled from the spec: [Array::Count], the allocated length of the
    sequence (0 if it was never allocated). *)
Definition Count (a : list T) : Z := Z.of_nat (length a).

(** Modelled from the spec: [Array::IsEmpty], no entry is allocated. *)
Definition IsEmpty (a : list T) : bool :=
  match a with [] => true | _ :: _ => false end.

(** Modelled from the spec: [Array::HasItems], the array is non-empty. *)
Definition HasItems (a : list T) : bool := negb (IsEmpty a).

(** Modelled from the spec: [Array::Resize (size, preserveContents)], which
    leaves a sequence of exactly [size] entries; [Resize (0)] clears it to
    empty.  The entries of a fresh allocation are indeterminate: they are
    read from [fresh], about which nothing is assumed. *)
Definition Resize (fresh : nat → T) (size : Z) (preserveContents : bool)
    (a : list T) : list T :=
  let n := Z.to_nat size in
  if bool_decide (n ≤ length a)%nat then take n a
  else if preserveContents
       then a ++ (fresh <$> seq (length a) (n - length a))
       else fresh <$> seq 0 n.

(** Modelled from the spec: [Array::SetAll (value)], the diagnostic fill of
    every entry. *)
Definition SetAll (value : T) (a : list T) : list T :=
  replicate (length a) value.

(** Modelled from the spec: [a[index]] read; an index outside [[0, Count)]
    is a precondition failure. *)
Definition Get (index : Z) (a : list T) : option T :=
  ASSERT (bool_decide (0 ≤ index) && bool_decide (index < Count a));;
  a !! Z.to_nat index.

(** Modelled from the spec: [a[index] = value]; an index outside
    [[0, Count)] is a precondition failure. *)
Definition Set_ (index : Z) (value : T) (a : list T) : option (list T) :=
  ASSERT (bool_decide (0 ≤ index) && bool_decide (index < Count a));;
  Some (<[Z.to_nat index := value]> a).
End Array.
End Array.

(** The loop that [SetResourceState] and [SetSubresourceState] contain,
    [for (i = 0; i < numSubresourceStates; i++) _subresourceState[i] = value;]
    with [numSubresourceStates = _subresourceState.Count ()]: every index of
    the loop is below [Count], so no access of it fails. *)
Definition fill_loop {T : Type} (value : T) (a : list T) : list T :=
  foldl (λ acc i, <[i := value]> acc) a (seq 0 (length a)).

(** ** The tracker *)

(** What an instantiation of the template fixes, with the build
    configuration: [StateType] is compared only by [==] and [!=]. *)
Class Instantiation (StateType : Type) : Type := {
  #[global] StateType_eq_dec :: EqDecision StateType;
  InvalidState : StateType;
  (** The value that [_resourceState : 31] holds after [s] is assigned. *)
  to_bits31 : StateType → StateType;
  BUILD_DEBUG : bool;
}.

Section GPUResourceState.
Context `{Instantiation StateType}.

Definition fits31 (s : StateType) : Prop := to_bits31 s = s.

Record GPUResourceState : Type := mkGPUResourceState {
  (** The whole resource state (used only if [_allSubresourcesSame]). *)
  _resourceState : StateType;
  (** [true] if [_resourceState] is valid, [false] if [_subresourceState] is. *)
  _allSubresourcesSame : bool;
  (** The per subresource state (used only if not [_allSubresourcesSame]). *)
  _subresourceState : list StateType;
}.

(** The constructor. *)
Definition new : GPUResourceState :=
  {| _resourceState := to_bits31 InvalidState;
     _allSubresourcesSame := true;
     _subresourceState := [] |}.

Definition Initialize (fresh : nat → StateType) (subresourceCount : Z)
    (initialState : StateType) (usePerSubresourceTracking : bool)
    (t : GPUResourceState) : option GPUResourceState :=
  ASSERT (Array.IsEmpty (_subresourceState t)
          && bool_decide (subresourceCount > 0));;
  let a1 :=
    if usePerSubresourceTracking && bool_decide (subresourceCount > 1)
    then Array.Resize fresh subresourceCount false (_subresourceState t)
    else _subresourceState t in
  let a2 := if BUILD_DEBUG then Array.SetAll InvalidState a1 else a1 in
  Some {| _resourceState := to_bits31 initialState;
          _allSubresourcesSame := true;
          _subresourceState := a2 |}.

Definition IsInitializated (t : GPUResourceState) : bool :=
  negb (bool_decide (_resourceState t = InvalidState))
  || Array.HasItems (_subresourceState t).

(** [Resize (0)] allocates nothing, so no fresh entry is read. *)
Definition Release (t : GPUResourceState) : GPUResourceState :=
  {| _resourceState := to_bits31 InvalidState;
     _allSubresourcesSame := _allSubresourcesSame t;
     _subresourceState :=
       Array.Resize (λ _, InvalidState) 0 true (_subresourceState t) |}.

Definition AreAllSubresourcesSame (t : GPUResourceState) : bool :=
  _allSubresourcesSame t.

Definition GetSubresourcesCount (t : GPUResourceState) : Z :=
  Array.Count (_subresourceState t).

(** The loop of [CheckResourceState]: leaves with [false] at the first
    entry that differs from [state]. *)
Fixpoint check_loop (state : StateType) (a : list StateType) : bool :=
  match a with
  | [] => true
  | x :: a' => if bool_decide (x ≠ state) then false else check_loop state a'
  end.

Definition CheckResourceState (state : StateType) (t : GPUResourceState)
    : bool :=
  if _allSubresourcesSame t then bool_decide (state = _resourceState t)
  else check_loop state (_subresourceState t).

Definition GetSubresourceState (subresourceIndex : Z) (t : GPUResourceState)
    : option StateType :=
  if _allSubresourcesSame t then Some (_resourceState t)
  else
    ASSERT (bool_decide (subresourceIndex >= 0)
            && bool_decide (subresourceIndex
                            < Array.Count (_subresourceState t)));;
    Array.Get subresourceIndex (_subresourceState t).

Definition SetResourceState (state : StateType) (t : GPUResourceState)
    : GPUResourceState :=
  {| _resourceState := to_bits31 state;
     _allSubresourcesSame := true;
     _subresourceState :=
       if BUILD_DEBUG then fill_loop InvalidState (_subresourceState t)
       else _subresourceState t |}.

(** The promotion inside [SetSubresourceState]: if the state was tracked on
    the per-resource level, transition to per-subresource tracking. *)
Definition promote (t : GPUResourceState) : GPUResourceState :=
  if _allSubresourcesSame t then
    {| _resourceState :=
         if BUILD_DEBUG then to_bits31 InvalidState else _resourceState t;
       _allSubresourcesSame := false;
       _subresourceState :=
         fill_loop (_resourceState t) (_subresourceState t) |}
  else t.

Definition SetSubresourceState (subresourceIndex : Z) (state : StateType)
    (t : GPUResourceState) : option GPUResourceState :=
  if bool_decide (subresourceIndex = -1)
     || bool_decide (Array.Count (_subresourceState t) ≤ 1)
  then Some (SetResourceState state t)
  else
    ASSERT (bool_decide (subresourceIndex
                         < Array.Count (_subresourceState t)));;
    let t1 := promote t in
    a ← Array.Set_ subresourceIndex state (_subresourceState t1);
    Some {| _resourceState := _resourceState t1;
            _allSubresourcesSame := _allSubresourcesSame t1;
            _subresourceState := a |}.
End GPUResourceState.

Arguments GPUResourceState : clear implicits.

(** ** Sequences of calls

    The mutating members as a type of calls.  The [const] members
    ([IsInitializated], [AreAllSubresourcesSame], [GetSubresourcesCount],
    [CheckResourceState], [GetSubresourceState]) are functions of the state
    and return no new state. *)

Section Calls.
Context `{Instantiation StateType}.

Inductive Call : Type :=
| CallInitialize (fresh : nat → StateType) (subresourceCount : Z)
    (initialState : StateType) (usePerSubresourceTracking : bool)
| CallRelease
| CallSetResourceState (state : StateType)
| CallSetSubresourceState (subresourceIndex : Z) (state : StateType).

Definition call (c : Call) (t : GPUResourceState StateType)
    : option (GPUResourceState StateType) :=
  match c with
  | CallInitialize fresh n s tracking => Initialize fresh n s tracking t
  | CallRelease => Some (Release t)
  | CallSetResourceState s => Some (SetResourceState s t)
  | CallSetSubresourceState k s => SetSubresourceState k s t
  end.

Fixpoint run (cs : list Call) (t : GPUResourceState StateType)
    : option (GPUResourceState StateType) :=
  match cs with
  | [] => Some t
  | c :: cs' => call c t ≫= run cs'
  end.

(** The states that the public operations produce from a constructed
    tracker. *)
Definition reachable (t : GPUResourceState StateType) : Prop :=
  ∃ cs, run cs new = Some t.

(** Two calls that a caller cannot tell apart: the same member with the
    same arguments; the contents of a fresh allocation are not an
    argument. *)
Inductive same_call : Call → Call → Prop :=
| same_Initialize fresh1 fresh2 n s tracking :
    same_call (CallInitialize fresh1 n s tracking)
              (CallInitialize fresh2 n s tracking)
| same_Release : same_call CallRelease CallRelease
| same_SetResourceState s :
    same_call (CallSetResourceState s) (CallSetResourceState s)
| same_SetSubresourceState k s :
    same_call (CallSetSubresourceState k s) (CallSetSubresourceState k s).

(** What the queries tell about a tracker. *)
Definition same_observations (a b : GPUResourceState StateType) : Prop :=
  IsInitializated a = IsInitializated b
  ∧ AreAllSubresourcesSame a = AreAllSubresourcesSame b
  ∧ GetSubresourcesCount a = GetSubresourcesCount b
  ∧ (∀ s, CheckResourceState s a = CheckResourceState s b)
  ∧ (∀ i, GetSubresourceState i a = GetSubresourceState i b).

(** Two runs end alike when both fail, or both return and the results are
    related. *)
Definition both (R : relation (GPUResourceState StateType))
    (oa ob : option (GPUResourceState StateType)) : Prop :=
  match oa, ob with
  | Some a, Some b => R a b
  | None, None => True
  | _, _ => False
  end.

Definition same_outcome (oa ob : option (GPUResourceState StateType))
    : Prop :=
  both same_observations oa ob.

(** Trackers that agree on the fields and on the length of the array, and
    on its entries once the array is the valid representation. *)
Definition alike (a b : GPUResourceState StateType) : Prop :=
  _resourceState a = _resourceState b
  ∧ _allSubresourcesSame a = _allSubresourcesSame b
  ∧ length (_subresourceState a) = length (_subresourceState b)
  ∧ (_allSubresourcesSame a = false
     → _subresourceState a = _subresourceState b).
End Calls.

Arguments Call : clear implicits.

(** ** The diagnostic fill

    What the [#if BUILD_DEBUG] blocks keep: the storage that the mode flag
    does not select holds [InvalidState]. *)

Section Diagnostics.
Context `{Instantiation StateType}.

Definition poisoned (t : GPUResourceState StateType) : Prop :=
  if _allSubresourcesSame t
  then ∀ j x, _subresourceState t !! j = Some x → x = InvalidState
  else _resourceState t = to_bits31 InvalidState.
End Diagnostics.

(** ** A concrete instantiation

    States are the integer values of an enumeration; the bit-field is
    unsigned and keeps the low 31 bits. *)

Module Sample.
Definition Read : Z := 1.
Definition Write : Z := 2.
Definition Invalid : Z := 0x7FFFFFFF.

Definition low31 (z : Z) : Z := Z.land z 0x7FFFFFFF.

Definition release_build : Instantiation Z :=
  {| InvalidState := Invalid; to_bits31 := low31; BUILD_DEBUG := false |}.

Definition debug_build : Instantiation Z :=
  {| InvalidState := Invalid; to_bits31 := low31; BUILD_DEBUG := true |}.

(** Indeterminate contents of a fresh allocation. *)
Definition garbage (i : nat) : Z := 0xCDCDCDCD + Z.of_nat i.
Definition zeroes (i : nat) : Z := 0.

(** [Initialize(4, Read, true); SetSubresourceState(2, Write)]. *)
Definition scenario_run (B : Instantiation Z) : option (GPUResourceState Z) :=
  run (H := B)
      [CallInitialize garbage 4 Read true; CallSetSubresourceState 2 Write]
      (new (H := B)).

(** The tracker that these two calls leave in a release build. *)
Definition per_subresource : GPUResourceState Z :=
  {| _resourceState := Read;
     _allSubresourcesSame := false;
     _subresourceState := [Read; Read; Write; Read] |}.
End Sample.

(** * Properties *)

Lemma ASSERT_true (b : bool) : b = true → ASSERT b = Some ().
Proof. by intros ->. Qed.

Lemma ASSERT_false (b : bool) : b = false → ASSERT b = None.
Proof. by intros ->. Qed.

(** ** The array *)

Section ArrayFacts.
Context {T : Type}.
Implicit Types (a : list T) (v : T) (i : Z).

Lemma Count_nonneg a : 0 ≤ Array.Count a.
Proof. unfold Array.Count. lia. Qed.

Lemma Count_nil : Array.Count (@nil T) = 0.
Proof. done. Qed.

Lemma IsEmpty_true a : Array.IsEmpty a = true ↔ a = [].
Proof. by destruct a. Qed.

Lemma Resize_0 fresh preserve a : Array.Resize fresh 0 preserve a = [].
Proof.
  unfold Array.Resize. rewrite bool_decide_eq_true_2 by (simpl; lia).
  done.
Qed.

Lemma Resize_nil_Count fresh n preserve :
  0 ≤ n → Array.Count (Array.Resize fresh n preserve (@nil T)) = n.
Proof.
  intros Hn. unfold Array.Resize, Array.Count. simpl.
  case_bool_decide as Hle.
  - rewrite take_nil. simpl. lia.
  - destruct preserve; simpl; rewrite length_fmap, length_seq; lia.
Qed.

Lemma SetAll_Count v a : Array.Count (Array.SetAll v a) = Array.Count a.
Proof. unfold Array.SetAll, Array.Count. by rewrite length_replicate. Qed.

(** The assignment loop, run up to [n], has filled the first [n] entries. *)
Lemma fill_prefix v a (n : nat) :
  (n ≤ length a)%nat →
  foldl (λ acc j, <[j := v]> acc) a (seq 0 n) = replicate n v ++ drop n a.
Proof.
  induction n as [|n IH]; intros Hn; [done|].
  rewrite seq_S, foldl_app, IH by lia.
  destruct (lookup_lt_is_Some_2 a n) as [x Hx]; [lia|].
  rewrite (drop_S _ _ _ Hx), replicate_S_end, <- (assoc_L (++)).
  cbn [foldl Nat.add].
  rewrite insert_app_r_alt by (rewrite length_replicate; lia).
  by rewrite length_replicate, Nat.sub_diag.
Qed.

Lemma fill_loop_replicate v a :
  fill_loop v a = replicate (length a) v.
Proof.
  unfold fill_loop. rewrite fill_prefix by lia.
  by rewrite drop_all, (right_id_L [] (++)).
Qed.

Lemma fill_loop_Count v a : Array.Count (fill_loop v a) = Array.Count a.
Proof.
  unfold Array.Count. by rewrite fill_loop_replicate, length_replicate.
Qed.

Lemma Get_in_range i a :
  0 ≤ i < Array.Count a → Array.Get i a = a !! Z.to_nat i.
Proof.
  intros Hi. unfold Array.Get. rewrite ASSERT_true; [done|].
  apply andb_true_intro. split; apply bool_decide_eq_true_2; lia.
Qed.

Lemma Get_out_of_range i a :
  ¬ (0 ≤ i < Array.Count a) → Array.Get i a = None.
Proof.
  intros Hi. unfold Array.Get. rewrite ASSERT_false; [done|].
  apply andb_false_iff.
  destruct (decide (0 ≤ i)); [right | left];
    apply bool_decide_eq_false_2; lia.
Qed.

Lemma Set_in_range i v a :
  0 ≤ i < Array.Count a →
  Array.Set_ i v a = Some (<[Z.to_nat i := v]> a).
Proof.
  intros Hi. unfold Array.Set_. rewrite ASSERT_true; [done|].
  apply andb_true_intro. split; apply bool_decide_eq_true_2; lia.
Qed.


Lemma Set_Count i v a a' :
  Array.Set_ i v a = Some a' → Array.Count a' = Array.Count a.
Proof.
  unfold Array.Set_. destruct (ASSERT _); simpl; [|done].
  intros [= <-]. unfold Array.Count. by rewrite length_insert.
Qed.
End ArrayFacts.

(** ** The members, one by one *)

Section MemberFacts.
Context `{Instantiation StateType}.
Implicit Types (t : GPUResourceState StateType) (s state : StateType).
Implicit Types (i k n : Z).

Lemma check_loop_true state (a : list StateType) :
  check_loop state a = true ↔ ∀ j x, a !! j = Some x → x = state.
Proof.
  induction a as [|y a IH]; simpl.
  - split; [intros _ j x Hj; by rewrite lookup_nil in Hj | done].
  - case_bool_decide as Hy.
    + split; [done|]. intros Hall. destruct Hy. by apply (Hall 0%nat).
    + subst y. rewrite IH. split.
      * intros Hall [|j] x; simpl; [by intros [= <-] | apply Hall].
      * intros Hall j x Hj. by apply (Hall (S j)).
Qed.

Lemma Initialize_empty fresh n s tracking t :
  _subresourceState t = [] → n > 0 →
  ∃ t', Initialize fresh n s tracking t = Some t'
    ∧ _resourceState t' = to_bits31 s
    ∧ _allSubresourcesSame t' = true
    ∧ GetSubresourcesCount t'
      = if tracking && bool_decide (n > 1) then n else 0.
Proof.
  intros Ha Hn. unfold Initialize. rewrite Ha. simpl.
  rewrite (bool_decide_eq_true_2 (n > 0)) by done. simpl.
  eexists. split; [done|]. simpl. split; [done|]. split; [done|].
  unfold GetSubresourcesCount. simpl.
  destruct (tracking && bool_decide (n > 1)) eqn:Hgo.
  - destruct BUILD_DEBUG; rewrite ?SetAll_Count, Resize_nil_Count; lia.
  - by destruct BUILD_DEBUG.
Qed.

Lemma Initialize_occupied fresh n s tracking t :
  _subresourceState t ≠ [] → Initialize fresh n s tracking t = None.
Proof.
  intros Ha. unfold Initialize. by destruct (_subresourceState t).
Qed.

Lemma Release_empty t : _subresourceState (Release t) = [].
Proof. apply Resize_0. Qed.

Lemma promote_mode t : _allSubresourcesSame (promote t) = false.
Proof. unfold promote. by destruct (_allSubresourcesSame t) eqn:E. Qed.

Lemma promote_entries t :
  _subresourceState (promote t)
  = if _allSubresourcesSame t
    then replicate (length (_subresourceState t)) (_resourceState t)
    else _subresourceState t.
Proof.
  unfold promote. destruct (_allSubresourcesSame t); [|done].
  apply fill_loop_replicate.
Qed.

Lemma promote_Count t :
  Array.Count (_subresourceState (promote t))
  = Array.Count (_subresourceState t).
Proof.
  rewrite promote_entries. destruct (_allSubresourcesSame t); [|done].
  unfold Array.Count. by rewrite length_replicate.
Qed.

(** The two branches of [SetSubresourceState]. *)
Lemma SetSubresourceState_whole k state t :
  k = -1 ∨ GetSubresourcesCount t ≤ 1 →
  SetSubresourceState k state t = Some (SetResourceState state t).
Proof.
  intros Hk. unfold SetSubresourceState, GetSubresourcesCount in *.
  destruct Hk as [Hk|Hk].
  - by rewrite (bool_decide_eq_true_2 (k = -1) Hk).
  - by rewrite (bool_decide_eq_true_2 (_ ≤ 1) Hk), orb_true_r.
Qed.

Lemma SetSubresourceState_single k state t :
  k ≠ -1 → 1 < GetSubresourcesCount t →
  SetSubresourceState k state t
  = (ASSERT (bool_decide (k < GetSubresourcesCount t));;
     a ← Array.Set_ k state (_subresourceState (promote t));
     Some {| _resourceState := _resourceState (promote t);
             _allSubresourcesSame := false;
             _subresourceState := a |}).
Proof.
  intros Hk Hc. unfold SetSubresourceState, GetSubresourcesCount in *.
  rewrite !bool_decide_eq_false_2 by lia. simpl.
  by rewrite promote_mode.
Qed.

Lemma SetSubresourceState_in_range k state t :
  0 ≤ k < GetSubresourcesCount t → 1 < GetSubresourcesCount t →
  SetSubresourceState k state t
  = Some {| _resourceState := _resourceState (promote t);
            _allSubresourcesSame := false;
            _subresourceState :=
              <[Z.to_nat k := state]> (_subresourceState (promote t)) |}.
Proof.
  intros Hk Hc. rewrite SetSubresourceState_single by lia.
  rewrite ASSERT_true by (apply bool_decide_eq_true_2; lia). simpl.
  rewrite Set_in_range; [done|]. rewrite promote_Count. apply Hk.
Qed.

Lemma GetSubresourceState_uniform i t :
  _allSubresourcesSame t = true →
  GetSubresourceState i t = Some (_resourceState t).
Proof. intros Hm. unfold GetSubresourceState. by rewrite Hm. Qed.

Lemma GetSubresourceState_in_range i t :
  _allSubresourcesSame t = false → 0 ≤ i < GetSubresourcesCount t →
  GetSubresourceState i t = _subresourceState t !! Z.to_nat i.
Proof.
  intros Hm Hi. unfold GetSubresourceState, GetSubresourcesCount in *.
  rewrite Hm, ASSERT_true; [by apply Get_in_range|].
  apply andb_true_intro. split; apply bool_decide_eq_true_2; lia.
Qed.

(** ** Promotion *)

(** C1.  Promotion: after [Initialize (n, s0, true)] with [n > 1] on a
    tracker that holds no per-subresource array, and then
    [SetSubresourceState (k, s1)] with [0 <= k < n], both calls return,
    [AreAllSubresourcesSame ()] is [false], [GetSubresourceState (k)] is
    [s1], and [GetSubresourceState (i)] is [s0] for every other index [i]
    of [[0, n)].  [s0] is a state that the 31-bit field holds. *)
Theorem promotion_on_first_diverging_write fresh n s0 s1 k t0 :
  _subresourceState t0 = [] → n > 1 → 0 ≤ k < n → fits31 s0 →
  ∃ t1 t2,
    Initialize fresh n s0 true t0 = Some t1
    ∧ SetSubresourceState k s1 t1 = Some t2
    ∧ AreAllSubresourcesSame t2 = false
    ∧ GetSubresourceState k t2 = Some s1
    ∧ ∀ i, 0 ≤ i < n → i ≠ k → GetSubresourceState i t2 = Some s0.
Proof.
  intros Ha Hn Hk Hs0.
  destruct (Initialize_empty fresh n s0 true t0 Ha)
    as (t1 & Hi & Hr & Hm & Hc); [lia|].
  rewrite bool_decide_eq_true_2 in Hc by done. simpl in Hc.
  exists t1. eexists. split; [done|].
  rewrite SetSubresourceState_in_range by lia.
  split; [done|]. split; [done|].
  assert (Hlen : length (_subresourceState (promote t1)) = Z.to_nat n).
  { pose proof (promote_Count t1) as Hp. unfold GetSubresourcesCount in Hc.
    rewrite Hc in Hp. unfold Array.Count in Hp. lia. }
  split.
  - rewrite GetSubresourceState_in_range; simpl; [|done|].
    + apply list_lookup_insert_eq. lia.
    + unfold GetSubresourcesCount, Array.Count. simpl.
      rewrite length_insert. lia.
  - intros i Hi' Hne. rewrite GetSubresourceState_in_range; simpl; [|done|].
    + rewrite list_lookup_insert_ne by lia.
      rewrite promote_entries, Hm, lookup_replicate_2, Hr; [by rewrite Hs0|].
      unfold GetSubresourcesCount, Array.Count in Hc. lia.
    + unfold GetSubresourcesCount, Array.Count. simpl.
      rewrite length_insert. lia.
Qed.

(** ** Queries *)

(** C2.  [CheckResourceState (s)] returns [true] if and only if
    [GetSubresourceState (i)] is [s] for every index [i] of
    [[0, allocatedCount)], and under Uniform mode for every index [i]
    whatever the allocated count is.  It holds in every tracker state, so
    in every reachable one. *)
Theorem CheckResourceState_iff_every_subresource state t :
  CheckResourceState state t = true
  ↔ ∀ i,
      AreAllSubresourcesSame t = true ∨ 0 ≤ i < GetSubresourcesCount t →
      GetSubresourceState i t = Some state.
Proof.
  unfold CheckResourceState, AreAllSubresourcesSame.
  destruct (_allSubresourcesSame t) eqn:Hm.
  - rewrite bool_decide_eq_true. split.
    + intros -> i _. by apply GetSubresourceState_uniform.
    + intros Hall. specialize (Hall 0 (or_introl eq_refl)).
      rewrite GetSubresourceState_uniform in Hall by done. congruence.
  - rewrite check_loop_true. split.
    + intros Hall i [?|Hi]; [done|].
      rewrite GetSubresourceState_in_range by done.
      destruct (lookup_lt_is_Some_2 (_subresourceState t) (Z.to_nat i))
        as [x Hx].
      { unfold GetSubresourcesCount, Array.Count in Hi. lia. }
      rewrite Hx. f_equal. by eapply Hall.
    + intros Hall j x Hj. pose proof (lookup_lt_Some _ _ _ Hj) as Hlt.
      specialize (Hall (Z.of_nat j)).
      rewrite GetSubresourceState_in_range, Nat2Z.id, Hj in Hall.
      * assert (Some x = Some state) by (apply Hall; right;
          unfold GetSubresourcesCount, Array.Count; lia). congruence.
      * done.
      * unfold GetSubresourcesCount, Array.Count. lia.
Qed.

(** C7.  Under Uniform mode [GetSubresourceState (index)] returns the
    uniform state for every index, inside [[0, allocatedCount)] or not. *)
Theorem GetSubresourceState_Uniform_any_index i t :
  AreAllSubresourcesSame t = true →
  GetSubresourceState i t = Some (_resourceState t).
Proof. apply GetSubresourceState_uniform. Qed.

(** ** Release *)

Lemma Release_Release t : Release (Release t) = Release t.
Proof.
  unfold Release at 1 3. simpl. by rewrite !Resize_0.
Qed.

(** A released tracker reports that it is not initialized. *)
Lemma Release_not_initialized t :
  fits31 InvalidState → IsInitializated (Release t) = false.
Proof.
  intros Hinv. unfold IsInitializated. rewrite Release_empty. simpl.
  by rewrite Hinv, bool_decide_eq_true_2.
Qed.

(** C3, as amended.  After [Release ()] the uniform state is
    [InvalidState] and the per-subresource array is empty; the mode is the
    one the tracker had before the call, so [AreAllSubresourcesSame ()]
    returns what it returned before, [true] for a tracker in Uniform mode;
    a second [Release ()] changes nothing.  [InvalidState] is a state that
    the 31-bit field holds. *)
Theorem Release_clears_and_keeps_mode t :
  fits31 InvalidState →
  _resourceState (Release t) = InvalidState
  ∧ _subresourceState (Release t) = []
  ∧ AreAllSubresourcesSame (Release t) = AreAllSubresourcesSame t
  ∧ Release (Release t) = Release t.
Proof.
  intros Hinv. split; [done|]. split; [apply Release_empty|].
  split; [done | apply Release_Release].
Qed.

(** C10.  A tracker released while in PerSubresource mode answers [true]
    to [CheckResourceState (s)] for every [s]: the flag still selects the
    array, which has no entry left. *)
Theorem CheckResourceState_released_PerSubresource s t :
  AreAllSubresourcesSame t = false →
  CheckResourceState s (Release t) = true.
Proof.
  intros Hm. unfold CheckResourceState.
  change (_allSubresourcesSame (Release t)) with (_allSubresourcesSame t).
  unfold AreAllSubresourcesSame in Hm. by rewrite Hm, Release_empty.
Qed.

(** ** Whole-resource writes *)

Lemma SetResourceState_Count s t :
  GetSubresourcesCount (SetResourceState s t) = GetSubresourcesCount t.
Proof.
  unfold GetSubresourcesCount, SetResourceState. simpl.
  destruct BUILD_DEBUG; [apply fill_loop_Count | done].
Qed.

Lemma SetResourceState_twice s t :
  SetResourceState s (SetResourceState s t) = SetResourceState s t.
Proof.
  unfold SetResourceState. simpl. f_equal.
  destruct BUILD_DEBUG; [|done].
  by rewrite !fill_loop_replicate, length_replicate.
Qed.

(** C8.  [SetResourceState (s)] called twice in a row leaves the tracker
    in the state that one call leaves it in, so every query answers the
    same. *)
Theorem SetResourceState_idempotent s t :
  SetResourceState s (SetResourceState s t) = SetResourceState s t
  ∧ same_observations (SetResourceState s (SetResourceState s t))
                      (SetResourceState s t).
Proof.
  rewrite SetResourceState_twice. split; [done|].
  by repeat split.
Qed.

(** C5.  Degenerate collapse: with the index [-1], or on a tracker whose
    array has at most one entry, [SetSubresourceState (k, s1)] returns the
    very state [SetResourceState (s1)] gives: Uniform mode with uniform
    state [s1]. *)
Theorem SetSubresourceState_collapses_to_SetResourceState k s1 t :
  k = -1 ∨ GetSubresourcesCount t ≤ 1 → fits31 s1 →
  SetSubresourceState k s1 t = Some (SetResourceState s1 t)
  ∧ AreAllSubresourcesSame (SetResourceState s1 t) = true
  ∧ _resourceState (SetResourceState s1 t) = s1.
Proof.
  intros Hk Hs1. split; [by apply SetSubresourceState_whole|].
  split; [done|]. apply Hs1.
Qed.

(** The trackers named in the degenerate collapse have no array at all. *)
Lemma Initialize_without_array fresh n s0 tracking t0 t1 :
  n = 1 ∨ tracking = false →
  Initialize fresh n s0 tracking t0 = Some t1 →
  GetSubresourcesCount t1 = 0.
Proof.
  intros Hdeg Hinit.
  destruct (decide (_subresourceState t0 = [])) as [Ha|Ha];
    [|by rewrite Initialize_occupied in Hinit].
  destruct (decide (n > 0)) as [Hn|Hn].
  - destruct (Initialize_empty fresh n s0 tracking t0 Ha Hn)
      as (t' & Ht' & _ & _ & Hc).
    rewrite Hinit in Ht'. injection Ht' as <-. rewrite Hc.
    destruct Hdeg as [->| ->]; [|done].
    by rewrite andb_false_r.
  - unfold Initialize in Hinit.
    rewrite (bool_decide_eq_false_2 (n > 0)), andb_false_r in Hinit by done.
    done.
Qed.
End MemberFacts.

(** ** Sequences of calls *)

Section CallFacts.
Context `{Instantiation StateType}.
Implicit Types (t a b : GPUResourceState StateType) (s : StateType).
Implicit Types (k n : Z) (c : Call StateType) (cs : list (Call StateType)).

Lemma SetSubresourceState_Count k s t t' :
  SetSubresourceState k s t = Some t' →
  GetSubresourcesCount t' = GetSubresourcesCount t.
Proof.
  destruct (decide (k = -1 ∨ GetSubresourcesCount t ≤ 1)) as [Hk|Hk].
  - rewrite SetSubresourceState_whole by done. intros [= <-].
    apply SetResourceState_Count.
  - rewrite SetSubresourceState_single by lia.
    destruct (ASSERT _); simpl; [|done].
    destruct (Array.Set_ _ _ _) as [a'|] eqn:Hset; simpl; [|done].
    intros [= <-]. unfold GetSubresourcesCount. simpl.
    by rewrite (Set_Count _ _ _ _ Hset), promote_Count.
Qed.

(** What each call does to the allocated length. *)
Lemma call_Count c t t' :
  call c t = Some t' →
  match c with
  | CallInitialize _ n _ tracking =>
      GetSubresourcesCount t = 0
      ∧ GetSubresourcesCount t'
        = if tracking && bool_decide (n > 1) then n else 0
  | CallRelease => GetSubresourcesCount t' = 0
  | CallSetResourceState _ | CallSetSubresourceState _ _ =>
      GetSubresourcesCount t' = GetSubresourcesCount t
  end.
Proof.
  destruct c as [fresh n s tracking| |s|k s]; simpl.
  - intros Hinit.
    destruct (decide (_subresourceState t = [])) as [Ha|Ha];
      [|by rewrite Initialize_occupied in Hinit].
    split; [unfold GetSubresourcesCount; by rewrite Ha|].
    destruct (decide (n > 0)) as [Hn|Hn].
    + destruct (Initialize_empty fresh n s tracking t Ha Hn)
        as (t1 & Ht1 & _ & _ & Hc). congruence.
    + unfold Initialize in Hinit.
      rewrite (bool_decide_eq_false_2 (n > 0)), andb_false_r in Hinit by done.
      done.
  - intros [= <-]. unfold GetSubresourcesCount. by rewrite Release_empty.
  - intros [= <-]. apply SetResourceState_Count.
  - apply SetSubresourceState_Count.
Qed.

(** C9.  Frame property on the allocation size: [SetResourceState] and
    [SetSubresourceState] with any index leave [GetSubresourcesCount ()]
    as it was; [Release] makes it 0; [Initialize] (n, _, tracking), which
    returns only on a tracker without array, makes it [n] when it
    allocates and leaves 0 otherwise.  The queries are [const] members
    and return no state. *)
Theorem allocated_length_changes_only_by_Initialize_Release c t t' :
  call c t = Some t' →
  match c with
  | CallInitialize _ n _ tracking =>
      GetSubresourcesCount t = 0
      ∧ GetSubresourcesCount t'
        = if tracking && bool_decide (n > 1) then n else 0
  | CallRelease => GetSubresourcesCount t' = 0
  | CallSetResourceState _ | CallSetSubresourceState _ _ =>
      GetSubresourcesCount t' = GetSubresourcesCount t
  end.
Proof. apply call_Count. Qed.

(** No array of the tracker ever has exactly one entry. *)
Lemma call_Count_not_1 c t t' :
  GetSubresourcesCount t ≠ 1 → call c t = Some t' →
  GetSubresourcesCount t' ≠ 1.
Proof.
  intros Ht Hc. apply call_Count in Hc.
  destruct c as [fresh n s tracking| |s|k s]; try lia.
  destruct Hc as [_ ->].
  destruct tracking; simpl; [case_bool_decide|]; lia.
Qed.

Lemma run_Count_not_1 cs t t' :
  GetSubresourcesCount t ≠ 1 → run cs t = Some t' →
  GetSubresourcesCount t' ≠ 1.
Proof.
  revert t. induction cs as [|c cs IH]; intros t Ht; simpl.
  - by intros [= <-].
  - destruct (call c t) as [t1|] eqn:Hc; simpl; [|done].
    apply IH. by eapply call_Count_not_1.
Qed.

Lemma reachable_Count_not_1 t :
  reachable t → GetSubresourcesCount t ≠ 1.
Proof.
  intros [cs Hcs]. by apply (run_Count_not_1 cs new t).
Qed.

(** C4.  No automatic demotion: on a reachable tracker in PerSubresource
    mode, [SetSubresourceState] with an index of [[0, allocatedCount)]
    returns, writes the one entry and leaves the tracker in PerSubresource
    mode, whatever the entries then are; and the only calls that return such
    a tracker in Uniform mode are [SetResourceState (s')] and the
    [SetSubresourceState (-1, s')] that delegates to it. *)
Theorem SetSubresourceState_never_demotes k s t :
  reachable t →
  AreAllSubresourcesSame t = false →
  0 ≤ k < GetSubresourcesCount t →
  (∃ t', SetSubresourceState k s t = Some t'
     ∧ AreAllSubresourcesSame t' = false
     ∧ _subresourceState t' = <[Z.to_nat k := s]> (_subresourceState t))
  ∧ ∀ c t',
      call c t = Some t' →
      AreAllSubresourcesSame t' = true →
      ∃ s', t' = SetResourceState s' t
        ∧ (c = CallSetResourceState s'
           ∨ c = CallSetSubresourceState (-1) s').
Proof.
  intros Hreach Hm Hk. apply reachable_Count_not_1 in Hreach.
  unfold AreAllSubresourcesSame in *. split.
  - eexists. rewrite SetSubresourceState_in_range by lia.
    split; [done|]. split; [done|]. simpl.
    by rewrite promote_entries, Hm.
  - intros [fresh n s0 tracking| |s'|k' s'] t'; simpl.
    + rewrite Initialize_occupied; [done|]. intros Ha.
      unfold GetSubresourcesCount in Hk. rewrite Ha in Hk.
      change (0 ≤ k < 0) in Hk. lia.
    + intros [= <-]. simpl. congruence.
    + intros [= <-] _. eauto.
    + destruct (decide (k' = -1)) as [->|Hk'].
      * rewrite SetSubresourceState_whole by auto. intros [= <-] _. eauto.
      * rewrite SetSubresourceState_single by lia.
        destruct (ASSERT _); simpl; [|done].
        destruct (Array.Set_ _ _ _); simpl; [|done].
        by intros [= <-].
Qed.
End CallFacts.

(** ** Trackers that no caller can tell apart *)

Section Equivalence.
Context `{Instantiation StateType}.
Implicit Types (t a b : GPUResourceState StateType) (s : StateType).
Implicit Types (k n : Z) (c : Call StateType) (cs : list (Call StateType)).

Lemma both_impl (R R' : relation (GPUResourceState StateType)) oa ob :
  (∀ a b, R a b → R' a b) → both R oa ob → both R' oa ob.
Proof. intros HR. destruct oa, ob; simpl; auto. Qed.

Lemma alike_Count a b :
  alike a b → GetSubresourcesCount a = GetSubresourcesCount b.
Proof.
  intros (_ & _ & Hlen & _). unfold GetSubresourcesCount, Array.Count.
  by rewrite Hlen.
Qed.

Lemma alike_observations a b : alike a b → same_observations a b.
Proof.
  intros Hab. pose proof (alike_Count a b Hab) as Hc.
  destruct Hab as (Hr & Hm & Hlen & Harr).
  repeat split.
  - unfold IsInitializated, Array.HasItems. rewrite Hr. f_equal. f_equal.
    destruct (_subresourceState a), (_subresourceState b); done.
  - done.
  - done.
  - intros s. unfold CheckResourceState. rewrite <- Hm, Hr.
    destruct (_allSubresourcesSame a); [done|]. by rewrite Harr.
  - intros i. unfold GetSubresourceState. rewrite <- Hm, Hr.
    destruct (_allSubresourcesSame a); [done|]. by rewrite Harr.
Qed.

Lemma alike_promote a b : alike a b → promote a = promote b.
Proof.
  intros (Hr & Hm & Hlen & Harr). unfold promote. rewrite <- Hm.
  destruct (_allSubresourcesSame a) eqn:Hma.
  - rewrite !fill_loop_replicate, Hr, Hlen. done.
  - specialize (Harr eq_refl). destruct a, b; simpl in *. by subst.
Qed.

Lemma alike_Initialize fresh1 fresh2 n s tracking a b :
  alike a b →
  both alike (Initialize fresh1 n s tracking a)
             (Initialize fresh2 n s tracking b).
Proof.
  intros (Hr & Hm & Hlen & Harr).
  destruct (decide (_subresourceState a = [])) as [Ha|Ha].
  - assert (Hb : _subresourceState b = []).
    { apply nil_length_inv. by rewrite <- Hlen, Ha. }
    destruct (decide (n > 0)) as [Hn|Hn].
    + destruct (Initialize_empty fresh1 n s tracking a Ha Hn)
        as (a' & -> & Hra & Hma & Hca).
      destruct (Initialize_empty fresh2 n s tracking b Hb Hn)
        as (b' & -> & Hrb & Hmb & Hcb).
      simpl. unfold alike. rewrite Hra, Hrb, Hma, Hmb.
      split; [done|]. split; [done|]. split; [|done].
      unfold GetSubresourcesCount, Array.Count in Hca, Hcb. lia.
    + unfold Initialize.
      rewrite (bool_decide_eq_false_2 (n > 0)), !andb_false_r by done.
      done.
  - assert (Hb : _subresourceState b ≠ []).
    { intros Hb. apply Ha, nil_length_inv. by rewrite Hlen, Hb. }
    by rewrite !Initialize_occupied.
Qed.

Lemma alike_SetResourceState s a b :
  alike a b → alike (SetResourceState s a) (SetResourceState s b).
Proof.
  intros (Hr & Hm & Hlen & Harr). unfold alike, SetResourceState. simpl.
  split; [done|]. split; [done|]. split; [|done].
  destruct BUILD_DEBUG; [|done].
  by rewrite !fill_loop_replicate, !length_replicate.
Qed.

Lemma alike_refl a : alike a a.
Proof. by repeat split. Qed.

Lemma alike_SetSubresourceState k s a b :
  alike a b →
  both alike (SetSubresourceState k s a) (SetSubresourceState k s b).
Proof.
  intros Hab. pose proof (alike_Count a b Hab) as Hc.
  destruct (decide (k = -1 ∨ GetSubresourcesCount a ≤ 1)) as [Hk|Hk].
  - rewrite !SetSubresourceState_whole by (rewrite <- ?Hc; done).
    simpl. by apply alike_SetResourceState.
  - rewrite !SetSubresourceState_single by lia.
    rewrite <- Hc, (alike_promote a b Hab).
    destruct (ASSERT _); simpl; [|done].
    destruct (Array.Set_ _ _ _); simpl; [|done].
    apply alike_refl.
Qed.

Lemma alike_call c1 c2 a b :
  same_call c1 c2 → alike a b → both alike (call c1 a) (call c2 b).
Proof.
  intros Hcall Hab. destruct Hcall; simpl.
  - by apply alike_Initialize.
  - destruct Hab as (Hr & Hm & Hlen & Harr). unfold alike.
    rewrite !Release_empty. done.
  - by apply alike_SetResourceState.
  - by apply alike_SetSubresourceState.
Qed.

Lemma alike_run cs1 cs2 :
  Forall2 same_call cs1 cs2 →
  ∀ a b, alike a b → both alike (run cs1 a) (run cs2 b).
Proof.
  induction 1 as [|c1 c2 cs1 cs2 Hc _ IH]; intros a b Hab; simpl; [done|].
  pose proof (alike_call c1 c2 a b Hc Hab) as Hstep.
  destruct (call c1 a) as [a'|], (call c2 b) as [b'|]; simpl in *;
    try done.
  by apply IH.
Qed.

(** C6.  Release/reinit equivalence: [Release ()] then
    [Initialize (n, s0, tracking)] with [n > 0], on any tracker, returns,
    as does the same [Initialize] on a freshly constructed tracker, and
    the two trackers answer every query alike after every sequence of
    further calls, given to both with the same arguments: either the
    sequence fails on both, or [IsInitializated], [AreAllSubresourcesSame],
    [GetSubresourcesCount], [CheckResourceState] and [GetSubresourceState]
    agree on the results.  The contents of fresh allocations may differ
    between the two. *)
Theorem Release_Initialize_as_fresh fresh1 fresh2 n s0 tracking t :
  n > 0 →
  ∃ a b,
    Initialize fresh1 n s0 tracking (Release t) = Some a
    ∧ Initialize fresh2 n s0 tracking new = Some b
    ∧ ∀ cs1 cs2, Forall2 same_call cs1 cs2 →
                 same_outcome (run cs1 a) (run cs2 b).
Proof.
  intros Hn.
  destruct (Initialize_empty fresh1 n s0 tracking (Release t)
              (Release_empty t) Hn) as (a & Ha & Hra & Hma & Hca).
  destruct (Initialize_empty fresh2 n s0 tracking new eq_refl Hn)
    as (b & Hb & Hrb & Hmb & Hcb).
  exists a, b. split; [done|]. split; [done|].
  intros cs1 cs2 Hcs. apply (both_impl alike); [apply alike_observations|].
  apply alike_run; [done|]. unfold alike.
  rewrite Hra, Hrb, Hma, Hmb. split; [done|]. split; [done|].
  split; [|done].
  unfold GetSubresourcesCount, Array.Count in Hca, Hcb. lia.
Qed.
End Equivalence.

(** * The properties on the sample instantiation *)

(** The scenario of the specification, in both builds:
    [Initialize (4, Read, true); SetSubresourceState (2, Write)], the
    queries, then [SetResourceState (Write)]. *)
Lemma scenario (B : Instantiation Z) :
  B = Sample.release_build ∨ B = Sample.debug_build →
  ∃ t, Sample.scenario_run B = Some t
    ∧ AreAllSubresourcesSame t = false
    ∧ GetSubresourceState 0 t = Some Sample.Read
    ∧ GetSubresourceState 1 t = Some Sample.Read
    ∧ GetSubresourceState 2 t = Some Sample.Write
    ∧ GetSubresourceState 3 t = Some Sample.Read
    ∧ CheckResourceState (H := B) Sample.Read t = false
    ∧ AreAllSubresourcesSame (SetResourceState (H := B) Sample.Write t) = true
    ∧ CheckResourceState (H := B) Sample.Write
        (SetResourceState (H := B) Sample.Write t) = true.
Proof. intros [-> | ->]; eexists; (split; [reflexivity|]); by vm_compute. Qed.

Lemma scenario_run_release_build :
  Sample.scenario_run Sample.release_build = Some Sample.per_subresource.
Proof. reflexivity. Qed.

Lemma promotion_on_first_diverging_write_witness :
  ∃ t1 t2,
    Initialize (H := Sample.release_build) Sample.garbage 4 Sample.Read true
      (new (H := Sample.release_build)) = Some t1
    ∧ SetSubresourceState (H := Sample.release_build) 2 Sample.Write t1
      = Some t2
    ∧ AreAllSubresourcesSame t2 = false
    ∧ GetSubresourceState 2 t2 = Some Sample.Write
    ∧ ∀ i, 0 ≤ i < 4 → i ≠ 2 →
           GetSubresourceState i t2 = Some Sample.Read.
Proof.
  apply (promotion_on_first_diverging_write (H := Sample.release_build));
    [reflexivity | reflexivity | lia | reflexivity].
Defined.

(** C3, as the specification states it, fails: a tracker released in
    PerSubresource mode is still in PerSubresource mode. *)
Lemma Release_leaves_PerSubresource_mode :
  Sample.scenario_run Sample.release_build = Some Sample.per_subresource
  ∧ AreAllSubresourcesSame
      (Release (H := Sample.release_build) Sample.per_subresource)
    = false.
Proof. split; reflexivity. Qed.

Lemma Release_clears_and_keeps_mode_witness :
  fits31 (H := Sample.release_build) Sample.Invalid
  ∧ _resourceState
      (Release (H := Sample.release_build) Sample.per_subresource)
    = Sample.Invalid
  ∧ _subresourceState
      (Release (H := Sample.release_build) Sample.per_subresource)
    = []
  ∧ AreAllSubresourcesSame
      (Release (H := Sample.release_build) Sample.per_subresource)
    = AreAllSubresourcesSame Sample.per_subresource
  ∧ Release (H := Sample.release_build)
      (Release (H := Sample.release_build) Sample.per_subresource)
    = Release (H := Sample.release_build) Sample.per_subresource.
Proof.
  split; [reflexivity|].
  apply (Release_clears_and_keeps_mode (H := Sample.release_build)).
  reflexivity.
Defined.

(** The write of [Read] at index 2 makes the four entries equal, and the
    tracker stays in PerSubresource mode. *)
Lemma SetSubresourceState_never_demotes_witness :
  (∃ t', SetSubresourceState (H := Sample.release_build) 2 Sample.Read
           Sample.per_subresource = Some t'
     ∧ AreAllSubresourcesSame t' = false
     ∧ _subresourceState t'
       = [Sample.Read; Sample.Read; Sample.Read; Sample.Read])
  ∧ ∀ c t',
      call (H := Sample.release_build) c Sample.per_subresource = Some t' →
      AreAllSubresourcesSame t' = true →
      ∃ s', t' = SetResourceState (H := Sample.release_build) s'
                   Sample.per_subresource
        ∧ (c = CallSetResourceState s'
           ∨ c = CallSetSubresourceState (-1) s').
Proof.
  apply (SetSubresourceState_never_demotes (H := Sample.release_build)
           2 Sample.Read Sample.per_subresource).
  - exists [CallInitialize Sample.garbage 4 Sample.Read true;
            CallSetSubresourceState 2 Sample.Write]. reflexivity.
  - reflexivity.
  - vm_compute. split; [discriminate | reflexivity].
Defined.

Lemma SetSubresourceState_collapses_witness :
  SetSubresourceState (H := Sample.release_build) (-1) Sample.Write
    Sample.per_subresource
  = Some (SetResourceState (H := Sample.release_build) Sample.Write
            Sample.per_subresource)
  ∧ AreAllSubresourcesSame
      (SetResourceState (H := Sample.release_build) Sample.Write
         Sample.per_subresource)
    = true
  ∧ _resourceState
      (SetResourceState (H := Sample.release_build) Sample.Write
         Sample.per_subresource)
    = Sample.Write.
Proof.
  apply (SetSubresourceState_collapses_to_SetResourceState
           (H := Sample.release_build));
    [left; reflexivity | reflexivity].
Defined.

Lemma Release_Initialize_as_fresh_witness :
  ∃ a b,
    Initialize (H := Sample.debug_build) Sample.garbage 4 Sample.Read true
      (Release (H := Sample.debug_build) Sample.per_subresource) = Some a
    ∧ Initialize (H := Sample.debug_build) Sample.zeroes 4 Sample.Read true
        (new (H := Sample.debug_build)) = Some b
    ∧ ∀ cs1 cs2, Forall2 same_call cs1 cs2 →
        same_outcome (H := Sample.debug_build)
          (run (H := Sample.debug_build) cs1 a)
          (run (H := Sample.debug_build) cs2 b).
Proof.
  apply (Release_Initialize_as_fresh (H := Sample.debug_build)). reflexivity.
Defined.

Lemma GetSubresourceState_Uniform_any_index_witness :
  GetSubresourceState 7 (new (H := Sample.release_build))
  = Some (_resourceState (new (H := Sample.release_build))).
Proof.
  apply GetSubresourceState_Uniform_any_index.
  reflexivity.
Defined.

Lemma allocated_length_witness :
  GetSubresourcesCount Sample.per_subresource = 4
  ∧ GetSubresourcesCount
      {| _resourceState := Sample.Read;
         _allSubresourcesSame := false;
         _subresourceState :=
           [Sample.Write; Sample.Read; Sample.Write; Sample.Read] |}
    = GetSubresourcesCount Sample.per_subresource.
Proof.
  split; [reflexivity|].
  apply (allocated_length_changes_only_by_Initialize_Release
           (H := Sample.release_build)
           (CallSetSubresourceState 0 Sample.Write) Sample.per_subresource).
  reflexivity.
Defined.

Lemma CheckResourceState_released_PerSubresource_witness :
  CheckResourceState (H := Sample.release_build) Sample.Write
    (Release (H := Sample.release_build) Sample.per_subresource) = true.
Proof.
  apply (CheckResourceState_released_PerSubresource
           (H := Sample.release_build)).
  reflexivity.
Defined.

(** * Further properties of the members *)

(** ** When a member returns *)

Section ReturnConditions.
Context `{Instantiation StateType}.
Implicit Types (t : GPUResourceState StateType) (s state : StateType).
Implicit Types (i k n : Z).

Lemma Count_0_nil t : GetSubresourcesCount t = 0 → _subresourceState t = [].
Proof.
  unfold GetSubresourcesCount, Array.Count. intros Hc.
  apply nil_length_inv. lia.
Qed.

Lemma Count_pos_not_nil t :
  0 < GetSubresourcesCount t → _subresourceState t ≠ [].
Proof.
  unfold GetSubresourcesCount. intros Hc Ha. rewrite Ha in Hc.
  change (0 < 0) in Hc. lia.
Qed.

Lemma Initialize_not_positive fresh n s tracking t :
  ¬ n > 0 → Initialize fresh n s tracking t = None.
Proof.
  intros Hn. unfold Initialize.
  by rewrite (bool_decide_eq_false_2 (n > 0)), andb_false_r.
Qed.

Lemma Initialize_returned fresh n s tracking t t' :
  Initialize fresh n s tracking t = Some t' →
  _subresourceState t = [] ∧ n > 0.
Proof.
  intros Ht'.
  destruct (decide (_subresourceState t = [])) as [Ha|Ha];
    [|by rewrite Initialize_occupied in Ht'].
  destruct (decide (n > 0)) as [Hn|Hn];
    [done | by rewrite Initialize_not_positive in Ht'].
Qed.


(** A second [Initialize] with no [Release] in between is caught by the
    assertion exactly when the first one allocated the array, that is when
    it was called with per-subresource tracking and more than one
    subresource; otherwise the second call returns. *)
Theorem second_Initialize_fails_iff_allocated
    fresh1 n1 s1 tracking1 fresh2 n2 s2 tracking2 t t1 :
  Initialize fresh1 n1 s1 tracking1 t = Some t1 →
  n2 > 0 →
  Initialize fresh2 n2 s2 tracking2 t1 = None ↔ tracking1 = true ∧ n1 > 1.
Proof.
  intros Hfirst Hn2.
  destruct (Initialize_returned _ _ _ _ _ _ Hfirst) as [Ha Hn1].
  destruct (Initialize_empty fresh1 n1 s1 tracking1 t Ha Hn1)
    as (t' & Ht' & _ & _ & Hc).
  rewrite Hfirst in Ht'. injection Ht' as <-.
  destruct tracking1; simpl in Hc; [case_bool_decide as Hgt|].
  - split; [done|]. intros _. apply Initialize_occupied, Count_pos_not_nil.
    lia.
  - pose proof (Count_0_nil _ Hc) as Ha1.
    destruct (Initialize_empty fresh2 n2 s2 tracking2 t1 Ha1 Hn2)
      as (t2 & -> & _).
    split; [done | tauto].
  - pose proof (Count_0_nil _ Hc) as Ha1.
    destruct (Initialize_empty fresh2 n2 s2 tracking2 t1 Ha1 Hn2)
      as (t2 & -> & _).
    split; [done | by intros [? _]].
Qed.

Lemma GetSubresourceState_out_of_range i t :
  _allSubresourcesSame t = false → ¬ (0 ≤ i < GetSubresourcesCount t) →
  GetSubresourceState i t = None.
Proof.
  intros Hm Hi. unfold GetSubresourceState, GetSubresourcesCount in *.
  rewrite Hm, ASSERT_false; [done|]. apply andb_false_iff.
  destruct (decide (i >= 0)); [right | left];
    apply bool_decide_eq_false_2; lia.
Qed.


End ReturnConditions.

(** ** Writes and what the queries answer after them *)

Section Writes.
Context `{Instantiation StateType}.
Implicit Types (t : GPUResourceState StateType) (s state : StateType).
Implicit Types (i k n : Z).

(** The tracker after a write at an index of the array. *)
Lemma SetSubresourceState_in_range_inv k state t t' :
  1 < GetSubresourcesCount t → 0 ≤ k < GetSubresourcesCount t →
  SetSubresourceState k state t = Some t' →
  _allSubresourcesSame t' = false
  ∧ GetSubresourcesCount t' = GetSubresourcesCount t
  ∧ promote t' = t'
  ∧ _subresourceState t'
    = <[Z.to_nat k := state]> (_subresourceState (promote t)).
Proof.
  intros Hc Hk. rewrite SetSubresourceState_in_range by done.
  intros [= <-]. split; [done|]. split; [|done].
  unfold GetSubresourcesCount, Array.Count. simpl.
  rewrite length_insert. apply promote_Count.
Qed.

Lemma SetSubresourceState_then k1 s1 k2 s2 t :
  1 < GetSubresourcesCount t →
  0 ≤ k1 < GetSubresourcesCount t → 0 ≤ k2 < GetSubresourcesCount t →
  SetSubresourceState k1 s1 t ≫= SetSubresourceState k2 s2
  = Some {| _resourceState := _resourceState (promote t);
            _allSubresourcesSame := false;
            _subresourceState :=
              <[Z.to_nat k2 := s2]>
                (<[Z.to_nat k1 := s1]> (_subresourceState (promote t))) |}.
Proof.
  intros Hc Hk1 Hk2.
  destruct (SetSubresourceState k1 s1 t) as [t1|] eqn:H1;
    [|by rewrite SetSubresourceState_in_range in H1].
  destruct (SetSubresourceState_in_range_inv k1 s1 t t1 Hc Hk1 H1)
    as (Hm1 & Hc1 & Hp1 & Ha1).
  simpl. rewrite SetSubresourceState_in_range by (rewrite Hc1; done).
  rewrite Hp1, Ha1. do 2 f_equal.
  rewrite SetSubresourceState_in_range in H1 by done.
  by injection H1 as <-.
Qed.

Lemma entry_before_write i t :
  0 ≤ i < GetSubresourcesCount t →
  _subresourceState (promote t) !! Z.to_nat i = GetSubresourceState i t.
Proof.
  intros Hi. rewrite promote_entries.
  destruct (_allSubresourcesSame t) eqn:Hm.
  - rewrite GetSubresourceState_uniform by done.
    apply lookup_replicate_2.
    unfold GetSubresourcesCount, Array.Count in Hi. lia.
  - by rewrite GetSubresourceState_in_range.
Qed.

(** A write at an index of the array, in either mode, makes
    [GetSubresourceState] answer the written state at that index and leaves
    its answer at every other index of the array as it was. *)
Theorem SetSubresourceState_changes_one_subresource k state t :
  1 < GetSubresourcesCount t → 0 ≤ k < GetSubresourcesCount t →
  ∃ t', SetSubresourceState k state t = Some t'
    ∧ GetSubresourceState k t' = Some state
    ∧ ∀ i, 0 ≤ i < GetSubresourcesCount t → i ≠ k →
           GetSubresourceState i t' = GetSubresourceState i t.
Proof.
  intros Hc Hk.
  destruct (SetSubresourceState k state t) as [t'|] eqn:Hset;
    [|by rewrite SetSubresourceState_in_range in Hset].
  destruct (SetSubresourceState_in_range_inv k state t t' Hc Hk Hset)
    as (Hm' & Hc' & _ & Ha').
  exists t'. split; [done|]. split.
  - rewrite GetSubresourceState_in_range, Ha' by (rewrite ?Hc'; done).
    apply list_lookup_insert_eq.
    pose proof (promote_Count t) as Hp.
    unfold GetSubresourcesCount, Array.Count in *. lia.
  - intros i Hi Hne.
    rewrite GetSubresourceState_in_range, Ha' by (rewrite ?Hc'; done).
    rewrite list_lookup_insert_ne by lia. by apply entry_before_write.
Qed.

(** Writes at two different indices of the array give the same tracker in
    either order. *)
Theorem SetSubresourceState_commute k1 s1 k2 s2 t :
  1 < GetSubresourcesCount t →
  0 ≤ k1 < GetSubresourcesCount t → 0 ≤ k2 < GetSubresourcesCount t →
  k1 ≠ k2 →
  SetSubresourceState k1 s1 t ≫= SetSubresourceState k2 s2
  = SetSubresourceState k2 s2 t ≫= SetSubresourceState k1 s1
  ∧ is_Some (SetSubresourceState k1 s1 t ≫= SetSubresourceState k2 s2).
Proof.
  intros Hc Hk1 Hk2 Hne. rewrite !SetSubresourceState_then by done.
  split; [|by eexists]. do 2 f_equal. apply list_insert_insert_ne. lia.
Qed.

(** Of two writes in a row at one index of the array the last one wins: the
    tracker is the one that the second write alone gives. *)
Theorem SetSubresourceState_last_write_wins k s1 s2 t :
  1 < GetSubresourcesCount t → 0 ≤ k < GetSubresourcesCount t →
  SetSubresourceState k s1 t ≫= SetSubresourceState k s2
  = SetSubresourceState k s2 t
  ∧ is_Some (SetSubresourceState k s2 t).
Proof.
  intros Hc Hk. rewrite SetSubresourceState_then by done.
  rewrite SetSubresourceState_in_range by done.
  split; [|by eexists]. do 2 f_equal. apply list_insert_insert_eq.
Qed.

Lemma check_loop_replicate state x (m : nat) :
  (0 < m)%nat → check_loop state (replicate m x) = bool_decide (state = x).
Proof.
  intros Hm. destruct (check_loop state (replicate m x)) eqn:Hloop.
  - symmetry. apply bool_decide_eq_true_2. symmetry.
    apply (proj1 (check_loop_true _ _) Hloop 0%nat).
    by apply lookup_replicate_2.
  - symmetry. apply bool_decide_eq_false_2. intros ->.
    assert (check_loop x (replicate m x) = true) as Htrue; [|congruence].
    apply check_loop_true. intros j y Hj.
    by apply lookup_replicate in Hj as [-> _].
Qed.

(** Writing at an index of the array the state that [GetSubresourceState]
    already answers there leaves every answer of [GetSubresourceState] on
    the array and every answer of [CheckResourceState] as it was; the
    tracker is in PerSubresource mode afterwards all the same. *)
Theorem SetSubresourceState_same_state_only_promotes k state t :
  1 < GetSubresourcesCount t → 0 ≤ k < GetSubresourcesCount t →
  GetSubresourceState k t = Some state →
  ∃ t', SetSubresourceState k state t = Some t'
    ∧ AreAllSubresourcesSame t' = false
    ∧ (∀ i, 0 ≤ i < GetSubresourcesCount t →
            GetSubresourceState i t' = GetSubresourceState i t)
    ∧ (∀ s, CheckResourceState s t' = CheckResourceState s t).
Proof.
  intros Hc Hk Hget.
  destruct (SetSubresourceState k state t) as [t'|] eqn:Hset;
    [|by rewrite SetSubresourceState_in_range in Hset].
  destruct (SetSubresourceState_in_range_inv k state t t' Hc Hk Hset)
    as (Hm' & Hc' & _ & Ha').
  rewrite list_insert_id in Ha' by (by rewrite entry_before_write).
  exists t'. split; [done|]. split; [done|]. split.
  - intros i Hi.
    rewrite GetSubresourceState_in_range, Ha' by (rewrite ?Hc'; done).
    by apply entry_before_write.
  - intros s. unfold CheckResourceState. rewrite Hm', Ha', promote_entries.
    destruct (_allSubresourcesSame t); [|done].
    apply check_loop_replicate.
    unfold GetSubresourcesCount, Array.Count in Hc. lia.
Qed.

(** After a write of [state] at an index of the array, [state] is the only
    one that [CheckResourceState] can accept. *)
Theorem CheckResourceState_after_write k state t t' s :
  1 < GetSubresourcesCount t → 0 ≤ k < GetSubresourcesCount t →
  SetSubresourceState k state t = Some t' →
  CheckResourceState s t' = true → s = state.
Proof.
  intros Hc Hk Hset Hcheck.
  destruct (SetSubresourceState_in_range_inv k state t t' Hc Hk Hset)
    as (Hm' & Hc' & _ & Ha').
  unfold CheckResourceState in Hcheck. rewrite Hm', Ha' in Hcheck.
  symmetry. apply (proj1 (check_loop_true _ _) Hcheck (Z.to_nat k)).
  apply list_lookup_insert_eq.
  pose proof (promote_Count t) as Hp.
  unfold GetSubresourcesCount, Array.Count in *. lia.
Qed.

(** Demotion: after [SetResourceState (state)], on any tracker, the mode is
    Uniform, [GetSubresourceState] answers [state] at every index and
    [CheckResourceState] accepts [state] and nothing else.  [state] is a
    state that the 31-bit field holds. *)
Theorem SetResourceState_sets_every_subresource state t :
  fits31 state →
  AreAllSubresourcesSame (SetResourceState state t) = true
  ∧ (∀ i, GetSubresourceState i (SetResourceState state t) = Some state)
  ∧ (∀ s, CheckResourceState s (SetResourceState state t) = true
          ↔ s = state).
Proof.
  intros Hfit. split; [done|]. split.
  - intros i. rewrite GetSubresourceState_uniform by done. simpl.
    by rewrite Hfit.
  - intros s. unfold CheckResourceState. simpl.
    by rewrite Hfit, bool_decide_eq_true.
Qed.

(** At most one state passes [CheckResourceState], unless the tracker is in
    PerSubresource mode with an empty array. *)
Theorem CheckResourceState_at_most_one_state s s' t :
  AreAllSubresourcesSame t = true ∨ 0 < GetSubresourcesCount t →
  CheckResourceState s t = true → CheckResourceState s' t = true →
  s = s'.
Proof.
  unfold CheckResourceState, AreAllSubresourcesSame, GetSubresourcesCount.
  destruct (_allSubresourcesSame t).
  - intros _. rewrite !bool_decide_eq_true. congruence.
  - intros [?|Hc]; [done|]. rewrite !check_loop_true. intros Hs Hs'.
    destruct (_subresourceState t) as [|x a]; [change (0 < 0) in Hc; lia|].
    rewrite <- (Hs 0%nat x eq_refl). by apply (Hs' 0%nat).
Qed.
End Writes.

(** ** The life cycle *)

Section LifeCycle.
Context `{Instantiation StateType}.
Implicit Types (t a b : GPUResourceState StateType) (s state : StateType).
Implicit Types (i k n : Z) (c : Call StateType) (cs : list (Call StateType)).

Lemma HasItems_Count (a : list StateType) :
  Array.HasItems a = true ↔ 0 < Array.Count a.
Proof.
  unfold Array.HasItems, Array.Count.
  destruct a; simpl; split; (done || lia).
Qed.

Lemma Initialize_inv fresh n s0 tracking t t' :
  Initialize fresh n s0 tracking t = Some t' →
  _resourceState t' = to_bits31 s0
  ∧ _allSubresourcesSame t' = true
  ∧ GetSubresourcesCount t'
    = if tracking && bool_decide (n > 1) then n else 0.
Proof.
  intros Hinit.
  destruct (decide (_subresourceState t = [])) as [Ha|Ha];
    [|by rewrite Initialize_occupied in Hinit].
  destruct (decide (n > 0)) as [Hn|Hn];
    [|by rewrite Initialize_not_positive in Hinit].
  destruct (Initialize_empty fresh n s0 tracking t Ha Hn) as (t1 & Ht1 & Hq).
  congruence.
Qed.

(** [Initialize], when it returns, leaves the tracker in Uniform mode, also
    when per-subresource tracking was asked for: [GetSubresourceState]
    answers [initialState] at every index, [CheckResourceState] accepts
    [initialState] and nothing else, and [GetSubresourcesCount] is
    [subresourceCount] if the array was allocated and 0 otherwise.
    [initialState] is a state that the 31-bit field holds. *)
Theorem Initialize_then_queries fresh n s0 tracking t t' :
  Initialize fresh n s0 tracking t = Some t' →
  fits31 s0 →
  AreAllSubresourcesSame t' = true
  ∧ (∀ i, GetSubresourceState i t' = Some s0)
  ∧ (∀ s, CheckResourceState s t' = true ↔ s = s0)
  ∧ GetSubresourcesCount t'
    = if tracking && bool_decide (n > 1) then n else 0.
Proof.
  intros Hinit Hfit.
  destruct (Initialize_inv _ _ _ _ _ _ Hinit) as (Hr & Hm & Hc).
  rewrite Hfit in Hr. split; [done|]. split; [|split; [|done]].
  - intros i. by rewrite GetSubresourceState_uniform, Hr.
  - intros s. unfold CheckResourceState.
    by rewrite Hm, Hr, bool_decide_eq_true.
Qed.

(** After [Initialize] has returned, [IsInitializated] is [true] exactly
    when the stored initial state differs from [InvalidState] or the array
    was allocated: [Initialize (n, InvalidState, false)] leaves a tracker
    that reports not initialized. *)
Theorem IsInitializated_after_Initialize fresh n s0 tracking t t' :
  Initialize fresh n s0 tracking t = Some t' →
  IsInitializated t' = true
  ↔ to_bits31 s0 ≠ InvalidState ∨ (tracking = true ∧ n > 1).
Proof.
  intros Hinit.
  destruct (Initialize_inv _ _ _ _ _ _ Hinit) as (Hr & Hm & Hc).
  unfold IsInitializated. rewrite orb_true_iff, negb_true_iff.
  rewrite bool_decide_eq_false, HasItems_Count, Hr.
  fold (GetSubresourcesCount t'). rewrite Hc.
  assert (n > 0) as Hn.
  { destruct (decide (n > 0)); [done|].
    by rewrite Initialize_not_positive in Hinit. }
  destruct tracking; simpl; [case_bool_decide|]; intuition (try lia; done).
Qed.

(** A tracker released in PerSubresource mode has no answer of
    [GetSubresourceState] at any index: the flag still selects the array,
    and no index is inside it. *)
Theorem GetSubresourceState_released_PerSubresource i t :
  AreAllSubresourcesSame t = false →
  GetSubresourceState i (Release t) = None.
Proof.
  intros Hm. apply GetSubresourceState_out_of_range; [done|].
  unfold GetSubresourcesCount. rewrite Release_empty.
  change (¬ (0 ≤ i < 0)). lia.
Qed.

(** A property that the constructor gives and every call keeps holds in
    every reachable state. *)
Lemma run_invariant (P : GPUResourceState StateType → Prop) :
  (∀ c t t', P t → call c t = Some t' → P t') →
  ∀ cs t t', P t → run cs t = Some t' → P t'.
Proof.
  intros Hstep. induction cs as [|c cs IH]; intros t t' Ht; simpl.
  - by intros [= <-].
  - destruct (call c t) as [t1|] eqn:Hc; simpl; [|done].
    apply IH. by eapply Hstep.
Qed.

(** The array of a reachable tracker never has exactly one entry:
    [GetSubresourcesCount] is 0 or at least 2. *)
Theorem GetSubresourcesCount_never_1 t :
  reachable t →
  GetSubresourcesCount t = 0 ∨ 2 ≤ GetSubresourcesCount t.
Proof.
  intros Hreach. apply reachable_Count_not_1 in Hreach.
  pose proof (Count_nonneg (_subresourceState t)) as Hpos.
  unfold GetSubresourcesCount in *. lia.
Qed.

Lemma call_poisoned c t t' :
  BUILD_DEBUG = true → poisoned t → call c t = Some t' → poisoned t'.
Proof.
  intros Hdebug Ht.
  assert (∀ s, poisoned (SetResourceState s t)) as Hwhole.
  { intros s j x. simpl. rewrite Hdebug, fill_loop_replicate.
    by intros [-> _]%lookup_replicate. }
  destruct c as [fresh n s tracking| |s|k s]; simpl.
  - unfold Initialize. destruct (ASSERT _); simpl; [|done].
    intros [= <-] j x. simpl. rewrite Hdebug. unfold Array.SetAll.
    by intros [-> _]%lookup_replicate.
  - intros [= <-]. unfold poisoned, Release. simpl.
    destruct (_allSubresourcesSame t); [|done].
    intros j x. by rewrite Resize_0, lookup_nil.
  - intros [= <-]. apply Hwhole.
  - destruct (decide (k = -1 ∨ GetSubresourcesCount t ≤ 1)) as [Hd|Hd].
    + rewrite SetSubresourceState_whole by done. intros [= <-]. apply Hwhole.
    + rewrite SetSubresourceState_single by lia.
      destruct (ASSERT _); simpl; [|done].
      destruct (Array.Set_ _ _ _); simpl; [|done].
      intros [= <-]. unfold poisoned, promote in *. simpl.
      destruct (_allSubresourcesSame t); simpl; [by rewrite Hdebug | done].
Qed.

(** In a debug build the storage that the mode flag does not select holds
    [InvalidState] in every reachable state: under Uniform mode every entry
    of the array, under PerSubresource mode the per-resource field. *)
Theorem debug_build_poisons_inactive_storage t :
  BUILD_DEBUG = true → reachable t → poisoned t.
Proof.
  intros Hdebug [cs Hcs].
  refine (run_invariant poisoned _ cs new t _ Hcs).
  - intros c a b. by apply call_poisoned.
  - intros j x. simpl. by rewrite lookup_nil.
Qed.

(** [SetResourceState] forgets all earlier writes: two trackers with the
    same allocated length, after [SetResourceState] of the same state,
    answer every query alike, also after any further calls given to both
    with the same arguments. *)
Theorem SetResourceState_forgets_history state a b :
  GetSubresourcesCount a = GetSubresourcesCount b →
  ∀ cs1 cs2, Forall2 same_call cs1 cs2 →
    same_outcome (run cs1 (SetResourceState state a))
                 (run cs2 (SetResourceState state b)).
Proof.
  intros Hc cs1 cs2 Hcs.
  apply (both_impl alike); [apply alike_observations|].
  apply alike_run; [done|]. unfold alike, SetResourceState. simpl.
  split; [done|]. split; [done|]. split; [|done].
  unfold GetSubresourcesCount, Array.Count in Hc.
  destruct BUILD_DEBUG; rewrite ?fill_loop_replicate, ?length_replicate; lia.
Qed.
End LifeCycle.

(** ** Writing every subresource in turn *)

Section WriteEach.
Context `{Instantiation StateType}.
Implicit Types (t : GPUResourceState StateType) (s state : StateType).
Implicit Types (cs : list (Call StateType)).

Lemma run_app cs1 cs2 t : run (cs1 ++ cs2) t = run cs1 t ≫= run cs2.
Proof.
  revert t. induction cs1 as [|c cs1 IH]; intros t; simpl; [done|].
  destruct (call c t); simpl; [apply IH | done].
Qed.

(** The tracker after the writes of [state] at the indices below [m]. *)
Lemma write_each_prefix state t (m : nat) :
  1 < GetSubresourcesCount t →
  (1 ≤ m ≤ length (_subresourceState t))%nat →
  run ((λ j : nat, CallSetSubresourceState (Z.of_nat j) state) <$> seq 0 m) t
  = Some {| _resourceState := _resourceState (promote t);
            _allSubresourcesSame := false;
            _subresourceState :=
              replicate m state ++ drop m (_subresourceState (promote t)) |}.
Proof.
  intros Hc. pose proof (promote_Count t) as Hp.
  unfold GetSubresourcesCount, Array.Count in Hc, Hp.
  induction m as [|m IH]; intros Hm; [lia|].
  destruct (decide (m = 0%nat)) as [->|Hm0].
  - simpl. rewrite SetSubresourceState_in_range
      by (unfold GetSubresourcesCount, Array.Count; lia).
    simpl. do 2 f_equal.
    destruct (_subresourceState (promote t)); [simpl in Hp; lia | done].
  - destruct (lookup_lt_is_Some_2 (_subresourceState (promote t)) m)
      as [x Hx]; [lia|].
    rewrite seq_S, fmap_app, run_app, IH by lia. simpl.
    rewrite SetSubresourceState_in_range
      by (unfold GetSubresourcesCount, Array.Count; simpl;
          rewrite length_app, length_replicate, length_drop; lia).
    unfold promote at 1 2. simpl. do 2 f_equal.
    change (state :: replicate m state ++ ?l)
      with (replicate (S m) state ++ l).
    rewrite Nat2Z.id, (drop_S _ _ _ Hx), replicate_S_end, <- (assoc_L (++)).
    rewrite insert_app_r_alt by (rewrite length_replicate; lia).
    by rewrite length_replicate, Nat.sub_diag.
Qed.

(** Writing one state at every index of the array in turn, from either
    mode, returns a tracker on which [GetSubresourceState] answers that
    state at every index of the array and [CheckResourceState] accepts it
    and nothing else, as after [SetResourceState]; the tracker is in
    PerSubresource mode all the same. *)
Theorem writing_every_subresource state t :
  1 < GetSubresourcesCount t →
  ∃ t',
    run ((λ j : nat, CallSetSubresourceState (Z.of_nat j) state)
           <$> seq 0 (length (_subresourceState t))) t = Some t'
    ∧ AreAllSubresourcesSame t' = false
    ∧ (∀ i, 0 ≤ i < GetSubresourcesCount t →
            GetSubresourceState i t' = Some state)
    ∧ (∀ s, CheckResourceState s t' = true ↔ s = state).
Proof.
  intros Hc. pose proof (promote_Count t) as Hp.
  eexists. rewrite write_each_prefix
    by (unfold GetSubresourcesCount, Array.Count in Hc; lia || done).
  unfold GetSubresourcesCount, Array.Count in Hc, Hp.
  rewrite drop_ge, (right_id_L [] (++)) by lia.
  split; [done|]. split; [done|]. split.
  - intros i Hi. unfold GetSubresourcesCount, Array.Count in Hi.
    rewrite GetSubresourceState_in_range; simpl; [|done|].
    + apply lookup_replicate_2. lia.
    + unfold GetSubresourcesCount, Array.Count. simpl.
      rewrite length_replicate. lia.
  - intros s. unfold CheckResourceState. simpl.
    rewrite check_loop_replicate by lia. apply bool_decide_eq_true.
Qed.
End WriteEach.

(** * The further properties on the sample instantiation *)

Lemma second_Initialize_fails_iff_allocated_witness :
  Initialize (H := Sample.release_build) Sample.zeroes 1 Sample.Write false
    {| _resourceState := Sample.Read;
       _allSubresourcesSame := true;
       _subresourceState := Sample.garbage <$> seq 0 4 |}
  = None
  ↔ true = true ∧ 4 > 1.
Proof.
  apply (second_Initialize_fails_iff_allocated (H := Sample.release_build)
           Sample.garbage 4 Sample.Read true Sample.zeroes 1 Sample.Write
           false (new (H := Sample.release_build)));
    reflexivity.
Defined.

Lemma SetSubresourceState_changes_one_subresource_witness :
  ∃ t', SetSubresourceState (H := Sample.release_build) 0 Sample.Write
          Sample.per_subresource = Some t'
    ∧ GetSubresourceState 0 t' = Some Sample.Write
    ∧ ∀ i,
        0 ≤ i < GetSubresourcesCount Sample.per_subresource → i ≠ 0 →
           GetSubresourceState i t'
           = GetSubresourceState i Sample.per_subresource.
Proof.
  apply (SetSubresourceState_changes_one_subresource
           (H := Sample.release_build));
    [reflexivity | vm_compute; split; [discriminate | reflexivity]].
Defined.

Lemma SetSubresourceState_commute_witness :
  SetSubresourceState (H := Sample.debug_build) 0 Sample.Write
    Sample.per_subresource
  ≫= SetSubresourceState (H := Sample.debug_build) 3 Sample.Write
  = SetSubresourceState (H := Sample.debug_build) 3 Sample.Write
      Sample.per_subresource
    ≫= SetSubresourceState (H := Sample.debug_build) 0 Sample.Write
  ∧ is_Some
      (SetSubresourceState (H := Sample.debug_build) 0 Sample.Write
         Sample.per_subresource
       ≫= SetSubresourceState (H := Sample.debug_build) 3 Sample.Write).
Proof.
  apply (SetSubresourceState_commute (H := Sample.debug_build));
    [reflexivity
    | vm_compute; split; [discriminate | reflexivity]
    | vm_compute; split; [discriminate | reflexivity]
    | discriminate].
Defined.

Lemma SetSubresourceState_last_write_wins_witness :
  SetSubresourceState (H := Sample.release_build) 1 Sample.Write
    Sample.per_subresource
  ≫= SetSubresourceState (H := Sample.release_build) 1 Sample.Invalid
  = SetSubresourceState (H := Sample.release_build) 1 Sample.Invalid
      Sample.per_subresource
  ∧ is_Some
      (SetSubresourceState (H := Sample.release_build) 1 Sample.Invalid
         Sample.per_subresource).
Proof.
  apply (SetSubresourceState_last_write_wins (H := Sample.release_build));
    [reflexivity | vm_compute; split; [discriminate | reflexivity]].
Defined.

(** A tracker in Uniform mode with an array of four dormant entries: the
    write of the state it already has at index 1 promotes it. *)
Lemma SetSubresourceState_same_state_only_promotes_witness :
  ∃ t', SetSubresourceState (H := Sample.release_build) 1 Sample.Read
          {| _resourceState := Sample.Read;
             _allSubresourcesSame := true;
             _subresourceState := Sample.garbage <$> seq 0 4 |}
        = Some t'
    ∧ AreAllSubresourcesSame t' = false
    ∧ (∀ i, 0 ≤ i < 4 →
            GetSubresourceState i t'
            = GetSubresourceState i
                {| _resourceState := Sample.Read;
                   _allSubresourcesSame := true;
                   _subresourceState := Sample.garbage <$> seq 0 4 |})
    ∧ (∀ s, CheckResourceState (H := Sample.release_build) s t'
            = CheckResourceState (H := Sample.release_build) s
                {| _resourceState := Sample.Read;
                   _allSubresourcesSame := true;
                   _subresourceState := Sample.garbage <$> seq 0 4 |}).
Proof.
  apply (SetSubresourceState_same_state_only_promotes
           (H := Sample.release_build) 1 Sample.Read);
    [reflexivity
    | vm_compute; split; [discriminate | reflexivity]
    | reflexivity].
Defined.

Lemma CheckResourceState_after_write_witness : Sample.Write = Sample.Write.
Proof.
  apply (CheckResourceState_after_write (H := Sample.release_build)
           0 Sample.Write
           {| _resourceState := Sample.Read;
              _allSubresourcesSame := false;
              _subresourceState := [Sample.Read; Sample.Write] |}
           {| _resourceState := Sample.Read;
              _allSubresourcesSame := false;
              _subresourceState := [Sample.Write; Sample.Write] |}
           Sample.Write);
    [reflexivity
    | vm_compute; split; [discriminate | reflexivity]
    | reflexivity
    | reflexivity].
Defined.

Lemma SetResourceState_sets_every_subresource_witness :
  AreAllSubresourcesSame
    (SetResourceState (H := Sample.debug_build) Sample.Write
       Sample.per_subresource)
  = true
  ∧ (∀ i, GetSubresourceState i
            (SetResourceState (H := Sample.debug_build) Sample.Write
               Sample.per_subresource)
          = Some Sample.Write)
  ∧ (∀ s, CheckResourceState (H := Sample.debug_build) s
            (SetResourceState (H := Sample.debug_build) Sample.Write
               Sample.per_subresource)
          = true
          ↔ s = Sample.Write).
Proof.
  apply (SetResourceState_sets_every_subresource (H := Sample.debug_build)).
  reflexivity.
Defined.

Lemma CheckResourceState_at_most_one_state_witness :
  Sample.Write = Sample.Write.
Proof.
  apply (CheckResourceState_at_most_one_state (H := Sample.release_build)
           Sample.Write Sample.Write
           {| _resourceState := Sample.Read;
              _allSubresourcesSame := false;
              _subresourceState := [Sample.Write; Sample.Write] |});
    [right; reflexivity | reflexivity | reflexivity].
Defined.

Lemma Initialize_then_queries_witness :
  AreAllSubresourcesSame
    {| _resourceState := Sample.Read;
       _allSubresourcesSame := true;
       _subresourceState := Sample.garbage <$> seq 0 4 |}
  = true
  ∧ (∀ i, GetSubresourceState i
            {| _resourceState := Sample.Read;
               _allSubresourcesSame := true;
               _subresourceState := Sample.garbage <$> seq 0 4 |}
          = Some Sample.Read)
  ∧ (∀ s, CheckResourceState (H := Sample.release_build) s
            {| _resourceState := Sample.Read;
               _allSubresourcesSame := true;
               _subresourceState := Sample.garbage <$> seq 0 4 |}
          = true
          ↔ s = Sample.Read)
  ∧ GetSubresourcesCount
      {| _resourceState := Sample.Read;
         _allSubresourcesSame := true;
         _subresourceState := Sample.garbage <$> seq 0 4 |}
    = 4.
Proof.
  apply (Initialize_then_queries (H := Sample.release_build)
           Sample.garbage 4 Sample.Read true
           (new (H := Sample.release_build)));
    reflexivity.
Defined.

(** [Initialize (1, Invalid, false)] returns a tracker that reports not
    initialized. *)
Lemma IsInitializated_after_Initialize_witness :
  IsInitializated (H := Sample.release_build)
    {| _resourceState := Sample.Invalid;
       _allSubresourcesSame := true;
       _subresourceState := [] |}
  = true
  ↔ Sample.low31 Sample.Invalid ≠ Sample.Invalid
    ∨ (false = true ∧ 1 > 1).
Proof.
  apply (IsInitializated_after_Initialize (H := Sample.release_build)
           Sample.garbage 1 Sample.Invalid false
           (new (H := Sample.release_build))).
  reflexivity.
Defined.

Lemma GetSubresourceState_released_PerSubresource_witness :
  GetSubresourceState 2
    (Release (H := Sample.release_build) Sample.per_subresource)
  = None.
Proof.
  apply (GetSubresourceState_released_PerSubresource
           (H := Sample.release_build)).
  reflexivity.
Defined.

Lemma GetSubresourcesCount_never_1_witness :
  GetSubresourcesCount Sample.per_subresource = 0
  ∨ 2 ≤ GetSubresourcesCount Sample.per_subresource.
Proof.
  apply (GetSubresourcesCount_never_1 (H := Sample.release_build)).
  exists [CallInitialize Sample.garbage 4 Sample.Read true;
          CallSetSubresourceState 2 Sample.Write].
  reflexivity.
Defined.

(** In the debug build the two calls of the scenario leave [Invalid] in the
    per-resource field. *)
Lemma debug_build_poisons_inactive_storage_witness :
  poisoned (H := Sample.debug_build)
    {| _resourceState := Sample.Invalid;
       _allSubresourcesSame := false;
       _subresourceState :=
         [Sample.Read; Sample.Read; Sample.Write; Sample.Read] |}.
Proof.
  apply (debug_build_poisons_inactive_storage (H := Sample.debug_build));
    [reflexivity|].
  exists [CallInitialize Sample.garbage 4 Sample.Read true;
          CallSetSubresourceState 2 Sample.Write].
  reflexivity.
Defined.

Lemma SetResourceState_forgets_history_witness :
  GetSubresourcesCount Sample.per_subresource = 4
  ∧ ∀ cs1 cs2, Forall2 same_call cs1 cs2 →
      same_outcome (H := Sample.release_build)
        (run (H := Sample.release_build) cs1
           (SetResourceState (H := Sample.release_build) Sample.Write
              Sample.per_subresource))
        (run (H := Sample.release_build) cs2
           (SetResourceState (H := Sample.release_build) Sample.Write
              {| _resourceState := Sample.Read;
                 _allSubresourcesSame := true;
                 _subresourceState := Sample.garbage <$> seq 0 4 |})).
Proof.
  split; [reflexivity|].
  apply (SetResourceState_forgets_history (H := Sample.release_build)).
  reflexivity.
Defined.

Lemma writing_every_subresource_witness :
  ∃ t',
    run (H := Sample.release_build)
      ((λ j : nat, CallSetSubresourceState (Z.of_nat j) Sample.Write)
         <$> seq 0 (length (_subresourceState Sample.per_subresource)))
      Sample.per_subresource = Some t'
    ∧ AreAllSubresourcesSame t' = false
    ∧ (∀ i, 0 ≤ i < GetSubresourcesCount Sample.per_subresource →
            GetSubresourceState i t' = Some Sample.Write)
    ∧ (∀ s, CheckResourceState (H := Sample.release_build) s t' = true
            ↔ s = Sample.Write).
Proof.
  apply (writing_every_subresource (H := Sample.release_build)).
  reflexivity.
Defined.
